(** * Kite installer dialog (spyder/plugins/completion/kite/widgets/install.py)

    A shallow embedding of the screen-transition logic of
    [KiteInstallation] and [KiteInstallerDialog], and the properties of
    its handlers.

    The dialog talks to three collaborators that live outside the file:
    the installation worker ([self._installation_thread]), the
    configuration store ([CONF]) and the Qt toolkit.  Every handler is a
    computation over a [State] that also records, in order, each call it
    makes on a collaborator ([Call]).  The state holds what the handlers
    read back: the worker's fields, the configuration entries, the
    visibility flag of each of the three screens, the progress label and
    bar, and whether the dialog is on screen and how it was closed. *)

From stdpp Require Import base strings gmap list.
From Stdlib Require Import ZArith.

Open Scope string_scope.
Open Scope Z_scope.
Open Scope list_scope.

(** ** Data *)

(** The installation worker as the dialog sees it: the [status] and
    [cancelled] attributes, and what [isRunning()] answers. *)
Record Thread := mkThread {
  status : string;
  cancelled : bool;
  running : bool
}.

(** The three screens stacked in the dialog's layout. *)
Inductive Screen :=
| Integration   (* self._integration_widget,  KiteIntegrationInfo *)
| Welcome       (* self._welcome_widget,      KiteWelcome *)
| Installation. (* self._installation_widget, KiteInstallation *)

(** [QProgressBar]: its range and value. *)
Record QProgressBar := mkBar {
  minimum : Z;
  maximum : Z;
  value : Z
}.

(** The Python values the dialog stores in its collaborators. *)
Inductive Value :=
| VBool (b : bool)
| VStr (text : string).

(** [QDialog.Accepted] / [QDialog.Rejected]. *)
Inductive DialogCode := Rejected | Accepted.

(** The button a [QMessageBox] returns. *)
Inductive StandardButton := NoButton | Ok | Yes | No.

Record State := mkState {
  thread : Thread;                        (* self._installation_thread *)
  CONF : gmap (string * string) Value;    (* (section, option) -> value *)
  integration_visible : bool;
  welcome_visible : bool;
  installation_visible : bool;
  _progress_label : string;
  _progress_bar : QProgressBar;
  dialog_visible : bool;                  (* the dialog window is shown *)
  done_code : option DialogCode           (* set by accept() / reject() *)
}.

(** Calls made on the collaborators, in the order the code makes them. *)
Inductive Call :=
| ThreadGetAttr (name : string)
| ThreadSetAttr (name : string) (v : Value)
| ThreadCall (method : string)
| ConfSet (section option : string) (v : Value)
| WidgetHide (w : Screen)
| WidgetSetVisible (w : Screen) (b : bool)
| WidgetIsVisible (w : Screen)
| LabelSetText (text : string)
| BarSetRange (lo hi : Z)
| BarSetMaximum (n : Z)
| BarSetValue (n : Z)
| DialogAccept
| DialogHide
| DialogReject
| DialogAdjustSize
| DialogCenter
| CriticalBox (title text : string)
| ErrorBoxExec (title text button url : string).

#[global] Instance Value_eq_dec : EqDecision Value.
Proof. solve_decision. Defined.
#[global] Instance Thread_eq_dec : EqDecision Thread.
Proof. solve_decision. Defined.
#[global] Instance Screen_eq_dec : EqDecision Screen.
Proof. solve_decision. Defined.
#[global] Instance StandardButton_eq_dec : EqDecision StandardButton.
Proof. solve_decision. Defined.
#[global] Instance Call_eq_dec : EqDecision Call.
Proof. solve_decision. Defined.

(** ** Field updates *)

Definition set_thread (t : Thread) (s : State) : State :=
  mkState t (CONF s) (integration_visible s) (welcome_visible s)
          (installation_visible s) (_progress_label s) (_progress_bar s)
          (dialog_visible s) (done_code s).

Definition set_CONF (c : gmap (string * string) Value) (s : State) : State :=
  mkState (thread s) c (integration_visible s) (welcome_visible s)
          (installation_visible s) (_progress_label s) (_progress_bar s)
          (dialog_visible s) (done_code s).

(** A screen's own shown/hidden flag: what [hide()] and [setVisible()]
    set on it. *)
Definition isVisible (w : Screen) (s : State) : bool :=
  match w with
  | Integration => integration_visible s
  | Welcome => welcome_visible s
  | Installation => installation_visible s
  end.

Definition setVisible (w : Screen) (b : bool) (s : State) : State :=
  match w with
  | Integration =>
      mkState (thread s) (CONF s) b (welcome_visible s)
              (installation_visible s) (_progress_label s) (_progress_bar s)
              (dialog_visible s) (done_code s)
  | Welcome =>
      mkState (thread s) (CONF s) (integration_visible s) b
              (installation_visible s) (_progress_label s) (_progress_bar s)
              (dialog_visible s) (done_code s)
  | Installation =>
      mkState (thread s) (CONF s) (integration_visible s) (welcome_visible s)
              b (_progress_label s) (_progress_bar s)
              (dialog_visible s) (done_code s)
  end.

Definition set_label (text : string) (s : State) : State :=
  mkState (thread s) (CONF s) (integration_visible s) (welcome_visible s)
          (installation_visible s) text (_progress_bar s)
          (dialog_visible s) (done_code s).

Definition set_bar (b : QProgressBar) (s : State) : State :=
  mkState (thread s) (CONF s) (integration_visible s) (welcome_visible s)
          (installation_visible s) (_progress_label s) b
          (dialog_visible s) (done_code s).

Definition set_dialog (shown : bool) (code : option DialogCode) (s : State)
  : State :=
  mkState (thread s) (CONF s) (integration_visible s) (welcome_visible s)
          (installation_visible s) (_progress_label s) (_progress_bar s)
          shown code.

(** ** Handlers as computations

    A handler takes the state and returns its result, the state it
    leaves, and the calls it made. *)

Definition Op (A : Type) : Type := State -> A * State * list Call.

#[global] Instance Op_ret : MRet Op := fun A a s => (a, s, []).

#[global] Instance Op_bind : MBind Op := fun A B f m s =>
  let '(a, s1, l1) := m s in
  let '(b, s2, l2) := f a s1 in
  (b, s2, l1 ++ l2).

Definition result_of {A} (r : A * State * list Call) : A := r.1.1.
Definition state_of {A} (r : A * State * list Call) : State := r.1.2.
Definition calls_of {A} (r : A * State * list Call) : list Call := r.2.

(** One call that changes the state by [f] and returns [a]. *)
Definition prim {A} (c : Call) (f : State -> State) (a : State -> A) : Op A :=
  fun s => (a s, f s, [c]).

(** Python's short-circuit [or] and [and] over computations. *)
Definition or_ (a b : Op bool) : Op bool :=
  x ← a; if x : bool then mret true else b.

Definition and_ (a b : Op bool) : Op bool :=
  x ← a; if x : bool then b else mret false.

(** *** Toolkit calls

    [hide()] and [setVisible()] set a screen's own flag.
    [QWidget.isVisible()] answers whether the screen can be seen: its own
    flag is set and the dialog, its window, is on screen ([on_screen]).
    [QDialog.accept()] and [QDialog.reject()] close the dialog with a
    result code, [QDialog.hide()] only takes it off the screen.
    [adjustSize()] and [center()] move and resize the window; geometry is
    not part of the state. *)

Definition on_screen (w : Screen) (s : State) : bool :=
  dialog_visible s && isVisible w s.

Definition widget_hide (w : Screen) : Op unit :=
  prim (WidgetHide w) (setVisible w false) (fun _ => ()).

Definition widget_setVisible (w : Screen) (b : bool) : Op unit :=
  prim (WidgetSetVisible w b) (setVisible w b) (fun _ => ()).

Definition widget_isVisible (w : Screen) : Op bool :=
  prim (WidgetIsVisible w) id (on_screen w).

Definition setText (text : string) : Op unit :=
  prim (LabelSetText text) (set_label text) (fun _ => ()).

(** *** QProgressBar

    The bar's methods take a C [int]: an argument outside its range
    raises [OverflowError] and the bar is left as it was.  Within the
    range they behave as Qt's: [setRange] orders the bounds and resets a
    value that falls outside them, [setMaximum] lowers the minimum when it
    has to, and [setValue] ignores a value outside the range unless the
    range is 0..0. *)

Definition INT_MIN : Z := -2147483648.
Definition INT_MAX : Z := 2147483647.

Definition c_int (n : Z) : bool := (INT_MIN <=? n) && (n <=? INT_MAX).

(** [QProgressBar::reset()] *)
Definition bar_reset (b : QProgressBar) : QProgressBar :=
  mkBar (minimum b) (maximum b)
        (if bool_decide (minimum b = INT_MIN) then INT_MIN
         else minimum b - 1).

(** [QProgressBar::setRange(int, int)] *)
Definition bar_setRange (lo hi : Z) (b : QProgressBar) : QProgressBar :=
  if bool_decide (lo = minimum b) && bool_decide (hi = maximum b) then b
  else
    let b' := mkBar lo (Z.max lo hi) (value b) in
    if (value b <? lo - 1) || (Z.max lo hi <? value b) then bar_reset b'
    else b'.

(** [QProgressBar::setMaximum(int)] *)
Definition bar_setMaximum (n : Z) (b : QProgressBar) : QProgressBar :=
  bar_setRange (Z.min (minimum b) n) n b.

(** [QProgressBar::setValue(int)] *)
Definition bar_setValue (n : Z) (b : QProgressBar) : QProgressBar :=
  if bool_decide (value b = n)
     || (((maximum b <? n) || (n <? minimum b))
         && negb (bool_decide (maximum b = 0) && bool_decide (minimum b = 0)))
  then b
  else mkBar (minimum b) (maximum b) n.

#[global] Arguments bar_setRange : simpl never.
#[global] Arguments bar_setMaximum : simpl never.
#[global] Arguments bar_setValue : simpl never.
#[global] Arguments c_int : simpl never.

Definition setRange (lo hi : Z) : Op unit :=
  prim (BarSetRange lo hi)
       (fun s => if c_int lo && c_int hi
                 then set_bar (bar_setRange lo hi (_progress_bar s)) s
                 else s)
       (fun _ => ()).

(** Returns whether the call returned; [false] stands for the
    [OverflowError]. *)
Definition setMaximum (n : Z) : Op bool :=
  prim (BarSetMaximum n)
       (fun s => if c_int n
                 then set_bar (bar_setMaximum n (_progress_bar s)) s
                 else s)
       (fun _ => c_int n).

Definition setValue (n : Z) : Op unit :=
  prim (BarSetValue n)
       (fun s => if c_int n
                 then set_bar (bar_setValue n (_progress_bar s)) s
                 else s)
       (fun _ => ()).

Definition accept : Op unit :=
  prim DialogAccept (set_dialog false (Some Accepted)) (fun _ => ()).

Definition hide : Op unit :=
  prim DialogHide (fun s => set_dialog false (done_code s) s) (fun _ => ()).

Definition super_reject : Op unit :=
  prim DialogReject (set_dialog false (Some Rejected)) (fun _ => ()).

Definition adjustSize : Op unit := prim DialogAdjustSize id (fun _ => ()).

Definition center : Op unit := prim DialogCenter id (fun _ => ()).

(** [CONF.set(section, option, value)] *)
Definition CONF_set (section option : string) (v : Value) : Op unit :=
  prim (ConfSet section option v)
       (fun s => set_CONF (<[(section, option) := v]> (CONF s)) s)
       (fun _ => ()).

(** *** Worker attributes *)

Definition thread_status : Op string :=
  prim (ThreadGetAttr "status") id (fun s => status (thread s)).

Definition thread_set_cancelled (b : bool) : Op unit :=
  prim (ThreadSetAttr "cancelled" (VBool b))
       (fun s => set_thread (mkThread (status (thread s)) b
                                      (running (thread s))) s)
       (fun _ => ()).

Definition thread_isRunning : Op bool :=
  prim (ThreadCall "isRunning") id (fun s => running (thread s)).

(** *** HoverEventFilter and the cancel button of KiteInstallation

    The filter is installed on the progress bar.  For each event it may
    emit one of its two signals, and it returns what the base class's
    [eventFilter] returns.  [KiteInstallation.__init__] hides the cancel
    button and connects [sig_hover_enter] to the button's [show()] and
    [sig_hover_leave] to its [hide()]. *)

(** [event.type()], as far as the filter tells event types apart. *)
Inductive QEventType :=
| HoverEnter
| HoverLeave
| OtherEvent (code : Z).

Inductive HoverSignal := sig_hover_enter | sig_hover_leave.

Definition eventFilter (super_eventFilter : QEventType -> bool)
           (event_type : QEventType) : list HoverSignal * bool :=
  (match event_type with
   | HoverEnter => [sig_hover_enter]
   | HoverLeave => [sig_hover_leave]
   | OtherEvent _ => []
   end,
   super_eventFilter event_type).

(** The slots connected to the two signals, on the cancel button's
    visibility flag. *)
Definition cancel_button_slot (visible : bool) (sig : HoverSignal) : bool :=
  match sig with
  | sig_hover_enter => true    (* cancel_button.show() *)
  | sig_hover_leave => false   (* cancel_button.hide() *)
  end.

(** The cancel button after the progress bar receives one event, and
    after it receives a sequence of them. *)
Definition progress_bar_event (super_eventFilter : QEventType -> bool)
           (visible : bool) (event_type : QEventType) : bool :=
  foldl cancel_button_slot visible
        (eventFilter super_eventFilter event_type).1.

Definition progress_bar_events (super_eventFilter : QEventType -> bool)
           (visible : bool) (event_types : list QEventType) : bool :=
  foldl (progress_bar_event super_eventFilter) visible event_types.

(** [cancel_button.hide()] in [KiteInstallation.__init__]. *)
Definition cancel_button_created : bool := false.

Definition is_hover (event_type : QEventType) : bool :=
  match event_type with
  | HoverEnter | HoverLeave => true
  | OtherEvent _ => false
  end.

(** The most recent hover event of a sequence, if any. *)
Definition last_hover (event_types : list QEventType) : option QEventType :=
  last (List.filter is_hover event_types).

(** Sample collaborators, to run the handlers on: the status strings, an
    identity translation, and a worker whose [install()] starts it and
    whose [quit()] stops it. *)
Module Sample.

Definition ERRORED : string := "Error".
Definition INSTALLING : string := "Installing Kite".
Definition FINISHED : string := "Install finished".
Definition CANCELLED : string := "Cancelled".

Definition gettext (text : string) : string := text.

Definition thread_install (t : Thread) : Thread :=
  mkThread (status t) false true.

Definition thread_quit (t : Thread) : Thread :=
  mkThread (status t) (cancelled t) false.

(** A worker that has not been started. *)
Definition idle : Thread := mkThread "No status" false false.

(** The dialog on its installation screen while the worker installs. *)
Definition installing : State :=
  mkState (mkThread INSTALLING false true) ∅ false false true
          INSTALLING (mkBar 0 0 (-1)) true None.

End Sample.

Section KiteInstaller.

(** The status constants imported from
    [spyder.plugins.completion.kite.utils.install]. *)
Variables ERRORED INSTALLING FINISHED CANCELLED : string.

(** The translation function [_] of [spyder.config.base]. *)
Variable gettext : string -> string.

(** What the worker's own [install()] and [quit()] do to it. *)
Variables thread_install thread_quit : Thread -> Thread.

Definition call_thread_install : Op unit :=
  prim (ThreadCall "install")
       (fun s => set_thread (thread_install (thread s)) s) (fun _ => ()).

Definition call_thread_quit : Op unit :=
  prim (ThreadCall "quit")
       (fun s => set_thread (thread_quit (thread s)) s) (fun _ => ()).

(** [QMessageBox.critical(...)]: shows the question and returns the
    button the user chose, [reply]. *)
Definition QMessageBox_critical (title text : string)
           (reply : StandardButton) : Op StandardButton :=
  prim (CriticalBox title text) id (fun _ => reply).

(** **** KiteInstallation *)

Definition update_installation_status (status : string) : Op unit :=
  setText status;;
  if bool_decide (status = INSTALLING) then setRange 0 0 else mret ().

(** An [OverflowError] from [setMaximum] ends the handler: [setValue] is
    not reached. *)
Definition update_installation_progress (current_value total : Z)
  : Op unit :=
  returned ← setMaximum total;
  if returned : bool then setValue current_value else mret ().

(** **** KiteInstallerDialog *)

(** The state [__init__] leaves: the three screens are created (a new
    child widget is not hidden, the label reads 'Downloading', the bar
    has Qt's initial range 0..100 and value -1), then the welcome and
    installation screens are hidden.  The dialog itself is not shown
    yet. *)
Definition created (kite_installation_thread : Thread)
           (conf : gmap (string * string) Value) : State :=
  mkState kite_installation_thread conf true true true
          (gettext "Downloading") (mkBar 0 100 (-1)) false None.

Definition init_body : Op unit :=
  widget_hide Welcome;;
  widget_hide Installation.

Definition init (kite_installation_thread : Thread)
           (conf : gmap (string * string) Value) : State :=
  (init_body (created kite_installation_thread conf)).1.2.

Definition error_text : string :=
  "<b>An error ocurred while Kite was installing!</b><br><br>" ++
  "You can follow our manual install instructions to<br>" ++
  "integrate Kite with Spyder yourself.".

Definition _handle_error_msg (msg : string) : Op unit :=
  prim (ErrorBoxExec (gettext "Kite install error") (gettext error_text)
                     (gettext "Contact Kite for help")
                     "https://kite.com/contact/")
       id (fun _ => ());;
  accept.

Definition welcome : Op unit :=
  widget_hide Integration;;
  widget_hide Installation;;
  widget_setVisible Welcome true;;
  adjustSize;;
  center.

Definition install : Op unit :=
  widget_hide Welcome;;
  widget_hide Integration;;
  call_thread_install;;
  widget_setVisible Installation true;;
  adjustSize;;
  center.

Definition cancel_install (user_reply : StandardButton) : Op bool :=
  reply ← QMessageBox_critical
            "Spyder" (gettext "Do you really want to cancel Kite installation?")
            user_reply;
  go ← and_ (mret (bool_decide (reply = Yes))) thread_isRunning;
  if go : bool then
    thread_set_cancelled true;;
    call_thread_quit;;
    hide;;
    mret true
  else mret false.

Definition finished_installation (status : string) : Op unit :=
  if bool_decide (status = FINISHED) then accept else mret ().

Definition status_is (c : string) : Op bool :=
  st ← thread_status; mret (bool_decide (st = c)).

Definition close_installer : Op unit :=
  terminal ← or_ (status_is ERRORED)
                 (or_ (status_is FINISHED) (status_is CANCELLED));
  if terminal : bool then accept else hide.

Definition reject : Op unit :=
  on_installation_widget ← widget_isVisible Installation;
  if on_installation_widget : bool then hide
  else
    CONF_set "kite" "installation/enabled" (VBool false);;
    super_reject.

(** **** Signal wiring ([__init__], the [connect] calls) *)

Inductive Event :=
| sig_download_progress (current_value total : Z)
| sig_installation_status (status : string)
| sig_error_msg (msg : string)
| integration_learn_more_clicked
| integration_install_clicked
| integration_dismiss_clicked
| welcome_install_clicked
| welcome_dismiss_clicked
| installation_ok_clicked
| installation_cancel_clicked (user_reply : StandardButton).

Definition handle (e : Event) : Op unit :=
  match e with
  | sig_download_progress c t => update_installation_progress c t
  | sig_installation_status st =>
      update_installation_status st;;
      finished_installation st
  | sig_error_msg msg => _handle_error_msg msg
  | integration_learn_more_clicked => welcome
  | integration_install_clicked => install
  | integration_dismiss_clicked => reject
  | welcome_install_clicked => install
  | welcome_dismiss_clicked => reject
  | installation_ok_clicked => close_installer
  | installation_cancel_clicked r => cancel_install r;; mret ()
  end.

(** The dialog's reaction to a sequence of events. *)
Fixpoint run (es : list Event) : Op unit :=
  match es with
  | [] => mret ()
  | e :: es' => handle e;; run es'
  end.

(** ** Vocabulary of the properties *)

(** The statuses on which the OK button closes the dialog for good. *)
Definition terminal (st : string) : Prop :=
  st = ERRORED \/ st = FINISHED \/ st = CANCELLED.

#[local] Instance terminal_dec st : Decision (terminal st).
Proof. unfold terminal. apply _. Defined.

Definition cancel_question : string :=
  gettext "Do you really want to cancel Kite installation?".

(** What a call does to the worker: its own [install()] and [quit()],
    and an assignment to its [cancelled] attribute.  No other call
    reaches it. *)
Definition worker_effect (t : Thread) (c : Call) : Thread :=
  match c with
  | ThreadCall m =>
      if decide (m = "install") then thread_install t
      else if decide (m = "quit") then thread_quit t
      else t
  | ThreadSetAttr n (VBool b) =>
      if decide (n = "cancelled") then mkThread (status t) b (running t)
      else t
  | _ => t
  end.

Definition writes_cancelled_true (c : Call) : Prop :=
  forall n v, c = ThreadSetAttr n v -> n = "cancelled" /\ v = VBool true.

Definition kite_enabled : string * string :=
  ("kite", "installation/enabled").

Definition clears_kite_flag (c : Call) : Prop :=
  forall sec opt v,
    c = ConfSet sec opt v ->
    sec = "kite" /\ opt = "installation/enabled" /\ v = VBool false.

Definition is_dismiss (e : Event) : Prop :=
  e = integration_dismiss_clicked \/ e = welcome_dismiss_clicked.

(** The flags of the info, welcome and installation screens. *)
Definition Vis : Type := bool * bool * bool.

Definition vis (s : State) : Vis :=
  (integration_visible s, welcome_visible s, installation_visible s).

Definition vis_set (w : Screen) (b : bool) (v : Vis) : Vis :=
  match w with
  | Integration => (b, v.1.2, v.2)
  | Welcome => (v.1.1, b, v.2)
  | Installation => (v.1.1, v.1.2, b)
  end.

(** What one call does to the flags. *)
Definition vis_effect (v : Vis) (c : Call) : Vis :=
  match c with
  | WidgetHide w => vis_set w false v
  | WidgetSetVisible w b => vis_set w b v
  | _ => v
  end.

Definition visible_count (v : Vis) : nat :=
  (Nat.b2n v.1.1 + Nat.b2n v.1.2 + Nat.b2n v.2)%nat.

Definition at_most_one (v : Vis) : Prop := (visible_count v <= 1)%nat.

#[local] Instance Event_eq_dec : EqDecision Event.
Proof. solve_decision. Defined.

(** The screen whose button sends an event; [None] for the worker's
    signals. *)
Definition source_screen (e : Event) : option Screen :=
  match e with
  | sig_download_progress _ _ => None
  | sig_installation_status _ => None
  | sig_error_msg _ => None
  | integration_learn_more_clicked => Some Integration
  | integration_install_clicked => Some Integration
  | integration_dismiss_clicked => Some Integration
  | welcome_install_clicked => Some Welcome
  | welcome_dismiss_clicked => Some Welcome
  | installation_ok_clicked => Some Installation
  | installation_cancel_clicked _ => Some Installation
  end.

(** A button can only be pressed on the screen that is showing. *)
Definition from_visible_screen (e : Event) (s : State) : bool :=
  match source_screen e with
  | Some w => isVisible w s
  | None => true
  end.

Fixpoint clicks_on_visible (es : list Event) (s : State) : bool :=
  match es with
  | [] => true
  | e :: es' =>
      from_visible_screen e s && clicks_on_visible es' (state_of (handle e s))
  end.

(** Info, welcome, installation: the order the screens come in. *)
Definition screen_rank (v : Vis) : nat :=
  if v.2 then 2%nat else if v.1.2 then 1%nat else 0%nat.

Definition is_install_click (e : Event) : Prop :=
  e = integration_install_clicked \/ e = welcome_install_clicked.

Definition is_confirmed_cancel (e : Event) : Prop :=
  e = installation_cancel_clicked Yes.

(** The events whose handlers hide the info screen. *)
Definition leaves_info (e : Event) : bool :=
  match e with
  | integration_learn_more_clicked
  | integration_install_clicked
  | welcome_install_clicked => true
  | _ => false
  end.

(** [accept()], [hide()] and [reject()] take the dialog off the screen. *)
Definition closes_dialog (c : Call) : bool :=
  match c with
  | DialogAccept | DialogHide | DialogReject => true
  | _ => false
  end.

Definition touches_worker (c : Call) : bool :=
  match c with
  | ThreadGetAttr _ | ThreadSetAttr _ _ | ThreadCall _ => true
  | _ => false
  end.

(** The status of the most recent status signal, [label] if there is
    none. *)
Fixpoint last_status (es : list Event) (label : string) : string :=
  match es with
  | [] => label
  | sig_installation_status st :: es' => last_status es' st
  | _ :: es' => last_status es' label
  end.

(** The progress bar's maximum as the notifications set it: the total of
    a progress notification when it fits a C [int], 0 on the
    [INSTALLING] status. *)
Fixpoint last_maximum (es : list Event) (m : Z) : Z :=
  match es with
  | [] => m
  | sig_download_progress _ total :: es' =>
      last_maximum es' (if c_int total then total else m)
  | sig_installation_status st :: es' =>
      last_maximum es' (if bool_decide (st = INSTALLING) then 0 else m)
  | _ :: es' => last_maximum es' m
  end.

(** ** Properties *)

Ltac split_ifs :=
  repeat match goal with
         | |- context [bool_decide ?P] => destruct (bool_decide P); simpl
         | |- context [if ?b then _ else _] => destruct b eqn:?; simpl
         end.

Ltac run_op :=
  unfold handle, close_installer, reject, cancel_install, install, welcome,
    _handle_error_msg, finished_installation, update_installation_status,
    update_installation_progress, status_is, or_, and_,
    QMessageBox_critical, call_thread_install, call_thread_quit,
    thread_status, thread_set_cancelled, thread_isRunning, CONF_set,
    accept, hide, super_reject, adjustSize, center, setText, setRange,
    setMaximum, setValue, widget_hide, widget_setVisible, widget_isVisible,
    prim, result_of, state_of, calls_of, mbind, mret, Op_bind, Op_ret;
  simpl.

(** Drop from the context what the statement does not mention. *)
Ltac only_mentioned := repeat match goal with x : _ |- _ => clear x end.

Ltac in_list := rewrite ?elem_of_cons, ?elem_of_nil; intuition congruence.

(** C1. [close_installer] accepts the dialog exactly when the worker's
    status is errored, finished or cancelled, and hides it for every
    other status. *)
Theorem close_installer_accepts_iff_terminal (s : State) :
  let r := close_installer s in
  (DialogAccept ∈ calls_of r <-> terminal (status (thread s))) /\
  (DialogHide ∈ calls_of r <-> ~ terminal (status (thread s))) /\
  state_of r =
    if decide (terminal (status (thread s)))
    then set_dialog false (Some Accepted) s
    else set_dialog false (done_code s) s.
Proof using Type.
  only_mentioned.
  unfold terminal. run_op.
  destruct (bool_decide_reflect (status (thread s) = ERRORED)) as [He|He];
    simpl.
  { rewrite decide_True by auto. split_and!; [in_list | in_list | done]. }
  destruct (bool_decide_reflect (status (thread s) = FINISHED)) as [Hf|Hf];
    simpl.
  { rewrite decide_True by auto. split_and!; [in_list | in_list | done]. }
  destruct (bool_decide_reflect (status (thread s) = CANCELLED)) as [Hc|Hc];
    simpl.
  { rewrite decide_True by auto. split_and!; [in_list | in_list | done]. }
  rewrite decide_False by intuition congruence.
  split_and!; [in_list | in_list | done].
Qed.

(** C2. On every error message from the worker the dialog shows the
    blocking error box with the "Contact Kite for help" button that
    opens the support page, and then accepts itself, whatever the
    worker's status and whichever screen is showing. *)
Theorem error_msg_always_accepts (msg : string) (s : State) :
  let r := handle (sig_error_msg msg) s in
  calls_of r =
    [ErrorBoxExec (gettext "Kite install error") (gettext error_text)
                  (gettext "Contact Kite for help")
                  "https://kite.com/contact/";
     DialogAccept] /\
  done_code (state_of r) = Some Accepted /\
  dialog_visible (state_of r) = false /\
  state_of r = set_dialog false (Some Accepted) s.
Proof using Type. only_mentioned. run_op. done. Qed.

(** C3. [reject] with the installation screen not visible (its
    [isVisible()] is [False]: the screen is hidden, or the dialog is off
    screen) sets [CONF]'s ('kite', 'installation/enabled') to [False] and
    rejects the dialog; with the installation screen visible it only
    hides the dialog. *)
Theorem reject_clears_flag_off_installation (s : State) :
  let r := reject s in
  if on_screen Installation s
  then calls_of r = [WidgetIsVisible Installation; DialogHide] /\
       state_of r = set_dialog false (done_code s) s
  else calls_of r =
         [WidgetIsVisible Installation;
          ConfSet "kite" "installation/enabled" (VBool false);
          DialogReject] /\
       CONF (state_of r) !! ("kite", "installation/enabled") =
         Some (VBool false) /\
       done_code (state_of r) = Some Rejected /\
       state_of r =
         set_dialog false (Some Rejected)
           (set_CONF
              (<[("kite", "installation/enabled") := VBool false]> (CONF s))
              s).
Proof using Type.
  only_mentioned.
  run_op. destruct (on_screen Installation s) eqn:Hv; simpl.
  - done.
  - split_and!; try done. apply lookup_insert_eq.
Qed.

(** C4. After [install()], from any state, the info and welcome
    screens are hidden, the installation screen is visible, and the
    worker's [install()] has been called exactly once. *)
Theorem install_shows_installation_screen (s : State) :
  let r := install s in
  isVisible Integration (state_of r) = false /\
  isVisible Welcome (state_of r) = false /\
  isVisible Installation (state_of r) = true /\
  length (filter (fun c => c = ThreadCall "install") (calls_of r)) = 1%nat /\
  thread (state_of r) = thread_install (thread s).
Proof using Type. only_mentioned. run_op. split_and!; reflexivity. Qed.

Lemma bar_setRange_0_0 (b : QProgressBar) :
  minimum (bar_setRange 0 0 b) = 0 /\ maximum (bar_setRange 0 0 b) = 0.
Proof using Type.
  unfold bar_setRange.
  destruct (bool_decide_reflect (0 = minimum b)) as [Hlo|Hlo],
           (bool_decide_reflect (0 = maximum b)) as [Hhi|Hhi]; simpl;
    try done;
    repeat case_match; done.
Qed.

(** C10. [update_installation_status] sets the progress label to the
    status, and calls [setRange(0, 0)] on the progress bar exactly when
    the status is [INSTALLING]; for any other status the bar is left as
    it was. *)
Theorem update_installation_status_label_and_range (st : string)
        (s : State) :
  let r := update_installation_status st s in
  _progress_label (state_of r) = st /\
  (BarSetRange 0 0 ∈ calls_of r <-> st = INSTALLING) /\
  (forall lo hi, BarSetRange lo hi ∈ calls_of r -> lo = 0 /\ hi = 0) /\
  (if decide (st = INSTALLING)
   then minimum (_progress_bar (state_of r)) = 0 /\
        maximum (_progress_bar (state_of r)) = 0
   else _progress_bar (state_of r) = _progress_bar s).
Proof using Type.
  only_mentioned.
  run_op.
  destruct (bool_decide_reflect (st = INSTALLING)) as [Hi|Hi]; simpl.
  - rewrite decide_True by done. change (c_int 0) with true. simpl.
    split_and!; try done.
    + in_list.
    + intros lo hi. in_list.
    + apply bar_setRange_0_0.
    + apply bar_setRange_0_0.
  - rewrite decide_False by done. split_and!; try done.
    + in_list.
    + intros lo hi. in_list.
Qed.

(** C5. [cancel_install] asks for confirmation and, when the user
    answers Yes, whether the worker is running.  When both hold it sets
    the worker's [cancelled] attribute to [True], calls its [quit()] and
    then hides the dialog, and that is all: nothing is asked of the
    worker after [quit()], neither a wait nor a check that it stopped.
    Otherwise it does nothing more. *)
Theorem cancel_install_sets_flag_quits_hides (user_reply : StandardButton)
        (s : State) :
  let r := cancel_install user_reply s in
  let go := bool_decide (user_reply = Yes) && running (thread s) in
  result_of r = go /\
  calls_of r =
    CriticalBox "Spyder" cancel_question ::
    (if bool_decide (user_reply = Yes) then [ThreadCall "isRunning"]
     else []) ++
    (if go
     then [ThreadSetAttr "cancelled" (VBool true);
           ThreadCall "quit";
           DialogHide]
     else []) /\
  state_of r =
    if go
    then set_dialog false (done_code s)
           (set_thread
              (thread_quit
                 (mkThread (status (thread s)) true (running (thread s))))
              s)
    else s.
Proof using Type.
  only_mentioned.
  run_op.
  destruct (bool_decide (user_reply = Yes)); simpl; [| done].
  destruct (running (thread s)) eqn:Hrun; simpl; [| done].
  rewrite ?Hrun. done.
Qed.

(** C9. If the user does not answer Yes, or the worker is not running,
    [cancel_install] returns [False] and changes nothing: no attribute
    of the worker is set, [quit()] is not called and the dialog is not
    hidden.  It returns [True] only when it has set the flag and called
    [quit()]. *)
Theorem cancel_install_declined_or_idle (user_reply : StandardButton)
        (s : State) :
  let r := cancel_install user_reply s in
  ((user_reply <> Yes) \/ (running (thread s) = false) ->
     result_of r = false /\
     state_of r = s /\
     (forall n v, ~ ThreadSetAttr n v ∈ calls_of r) /\
     (ThreadCall "quit" ∉ calls_of r) /\
     (DialogHide ∉ calls_of r)) /\
  (result_of r = true ->
     user_reply = Yes /\ running (thread s) = true /\
     ThreadSetAttr "cancelled" (VBool true) ∈ calls_of r /\
     ThreadCall "quit" ∈ calls_of r).
Proof using Type.
  only_mentioned.
  run_op.
  destruct (bool_decide_reflect (user_reply = Yes)) as [Hy|Hy]; simpl;
    [destruct (running (thread s)) eqn:Hrun; simpl |].
  - split; [intros [?|?]; congruence |].
    intros _. split_and!; try done; in_list.
  - split; [| discriminate].
    intros _. destruct s. split_and!; try done; try intros n v; in_list.
  - split; [| discriminate].
    intros _. destruct s. split_and!; try done; try intros n v; in_list.
Qed.

(** *** Sequences of events *)

Lemma run_cons_calls e es s :
  calls_of (run (e :: es) s) =
  calls_of (handle e s) ++ calls_of (run es (state_of (handle e s))).
Proof using Type.
  only_mentioned.
  unfold calls_of, state_of. simpl. unfold mbind, Op_bind.
  destruct (handle e s) as [[u s1] l1]. simpl.
  destruct (run es s1) as [[u' s2] l2]. reflexivity.
Qed.

Lemma run_cons_state e es s :
  state_of (run (e :: es) s) = state_of (run es (state_of (handle e s))).
Proof using Type.
  only_mentioned.
  unfold state_of. simpl. unfold mbind, Op_bind.
  destruct (handle e s) as [[u s1] l1]. simpl.
  destruct (run es s1) as [[u' s2] l2]. reflexivity.
Qed.

Lemma handle_worker e s :
  Forall writes_cancelled_true (calls_of (handle e s)) /\
  thread (state_of (handle e s)) =
    foldl worker_effect (thread s) (calls_of (handle e s)).
Proof using Type.
  only_mentioned.
  unfold writes_cancelled_true.
  destruct e; run_op;
    repeat match goal with
           | |- context [bool_decide ?P] => destruct (bool_decide P); simpl
           | |- context [if ?b then _ else _] => destruct b eqn:?; simpl
           end;
    (split; [repeat constructor; intros; simplify_eq; auto | done]).
Qed.

(** C6. Over every sequence of events the dialog handles, the only
    attribute of the worker it assigns is [cancelled] (to [True]); the
    [status] attribute is never assigned, and the worker changes only
    through that assignment and its own [install()] and [quit()]. *)
Theorem dialog_never_writes_worker_status (es : list Event) (s : State) :
  let r := run es s in
  Forall writes_cancelled_true (calls_of r) /\
  (forall v, ThreadSetAttr "status" v ∉ calls_of r) /\
  thread (state_of r) = foldl worker_effect (thread s) (calls_of r).
Proof using Type.
  only_mentioned.
  cut (Forall writes_cancelled_true (calls_of (run es s)) /\
       thread (state_of (run es s)) =
         foldl worker_effect (thread s) (calls_of (run es s))).
  { intros [Hw Ht]. split_and!; try done.
    intros v Hin. rewrite Forall_forall in Hw.
    destruct (Hw _ Hin "status" v eq_refl) as [Hn _]. discriminate. }
  revert s. induction es as [|e es IH]; intros s.
  - split; [constructor | reflexivity].
  - rewrite run_cons_calls, run_cons_state.
    destruct (handle_worker e s) as [Hw Ht].
    destruct (IH (state_of (handle e s))) as [Hw' Ht'].
    split.
    + apply Forall_app. auto.
    + rewrite foldl_app, <- Ht. exact Ht'.
Qed.

(** *** The configuration store *)

Lemma handle_conf e s :
  Forall clears_kite_flag (calls_of (handle e s)) /\
  (CONF (state_of (handle e s)) = CONF s \/
   CONF (state_of (handle e s)) = <[kite_enabled := VBool false]> (CONF s)) /\
  (forall sec opt v,
     ConfSet sec opt v ∈ calls_of (handle e s) ->
     is_dismiss e /\ on_screen Installation s = false).
Proof using Type.
  only_mentioned.
  unfold clears_kite_flag, is_dismiss, kite_enabled.
  destruct e; run_op;
    repeat match goal with
           | |- context [bool_decide ?P] => destruct (bool_decide P); simpl
           | |- context [if ?b then _ else _] => destruct b eqn:?; simpl
           end;
    (split_and!;
     [ repeat constructor; intros; simplify_eq; auto
     | auto
     | intros sec opt v; rewrite ?elem_of_cons, ?elem_of_nil;
       intuition (try discriminate; auto) ]).
Qed.

(** C7. Over every sequence of events, every write the dialog makes to
    the configuration store sets ('kite', 'installation/enabled') to
    [False]: no other key is written and the flag is never set to
    [True].  The write comes from [reject], reached from a dismiss
    button, with the installation screen not visible (its [isVisible()]
    is [False]). *)
Theorem only_conf_write_clears_kite_flag (es : list Event) (s : State) :
  let r := run es s in
  Forall clears_kite_flag (calls_of r) /\
  (CONF (state_of r) = CONF s \/
   CONF (state_of r) = <[kite_enabled := VBool false]> (CONF s)) /\
  (forall k, k <> kite_enabled -> CONF (state_of r) !! k = CONF s !! k) /\
  (forall e s' sec opt v,
     ConfSet sec opt v ∈ calls_of (handle e s') ->
     is_dismiss e /\ on_screen Installation s' = false).
Proof using Type.
  only_mentioned.
  cut (Forall clears_kite_flag (calls_of (run es s)) /\
       (CONF (state_of (run es s)) = CONF s \/
        CONF (state_of (run es s)) =
          <[kite_enabled := VBool false]> (CONF s))).
  { intros [Hw Hc]. split_and!; try done.
    - intros k Hk. destruct Hc as [-> | ->]; [done |].
      by apply lookup_insert_ne.
    - intros e s'. apply handle_conf. }
  revert s. induction es as [|e es IH]; intros s.
  - split; [constructor | by left].
  - rewrite run_cons_calls, run_cons_state.
    destruct (handle_conf e s) as (Hw & Hc & _).
    destruct (IH (state_of (handle e s))) as [Hw' Hc'].
    split; [apply Forall_app; auto |].
    destruct Hc' as [-> | ->], Hc as [-> | ->]; auto.
    right. apply insert_insert_eq.
Qed.

(** *** Screen visibility *)

Lemma handle_vis e s :
  vis (state_of (handle e s)) =
  foldl vis_effect (vis s) (calls_of (handle e s)).
Proof using Type. only_mentioned. destruct e; run_op; split_ifs; reflexivity. Qed.

(** The flags after each call a handler makes, not only at its end. *)
Lemma handle_vis_prefix e s n :
  at_most_one (vis s) ->
  at_most_one (foldl vis_effect (vis s) (take n (calls_of (handle e s)))).
Proof using Type.
  only_mentioned.
  unfold at_most_one, visible_count, vis.
  destruct s as [[st ca ru] cf i w ins lb br dv dc]; simpl.
  intros Hinv.
  destruct e; run_op; split_ifs;
    do 7 (try (destruct n as [|n]; simpl; [first [exact Hinv | lia] |]));
    first [exact Hinv | lia | idtac].
  all: destruct i, w, ins; simpl in *; lia.
Qed.

Lemma run_vis_prefix es : forall s n,
  at_most_one (vis s) ->
  at_most_one (foldl vis_effect (vis s) (take n (calls_of (run es s)))).
Proof using Type.
  only_mentioned.
  induction es as [|e es IH]; intros s n Hinv.
  - unfold calls_of. simpl. by rewrite take_nil.
  - rewrite run_cons_calls, take_app, foldl_app.
    destruct (decide (n <= length (calls_of (handle e s)))%nat) as [Hle|Hgt].
    + replace (n - length (calls_of (handle e s)))%nat with 0%nat by lia.
      rewrite take_0. simpl. by apply handle_vis_prefix.
    + rewrite take_ge by lia. rewrite <- handle_vis.
      apply IH. rewrite handle_vis.
      rewrite <- (take_ge (calls_of (handle e s))
                          (length (calls_of (handle e s)))) at 1 by lia.
      by apply handle_vis_prefix.
Qed.

Lemma run_vis es : forall s,
  vis (state_of (run es s)) = foldl vis_effect (vis s) (calls_of (run es s)).
Proof using Type.
  only_mentioned.
  induction es as [|e es IH]; intros s; [reflexivity |].
  rewrite run_cons_calls, run_cons_state, foldl_app, <- handle_vis.
  apply IH.
Qed.

Lemma run_at_most_one es s :
  at_most_one (vis s) -> at_most_one (vis (state_of (run es s))).
Proof using Type.
  only_mentioned.
  intros Hinv. rewrite run_vis.
  rewrite <- (firstn_all (calls_of (run es s))).
  by apply run_vis_prefix.
Qed.


(** *** Further properties of the handlers *)

Lemma run_app_state es1 : forall es2 s,
  state_of (run (es1 ++ es2) s) = state_of (run es2 (state_of (run es1 s))).
Proof using Type.
  induction es1 as [|e es1 IH]; intros es2 s; [reflexivity |].
  rewrite <- app_comm_cons, !run_cons_state. apply IH.
Qed.

Lemma status_signal_accepts_iff_finished_aux (st : string) (s : State) :
  DialogAccept ∈ calls_of (handle (sig_installation_status st) s) <->
  st = FINISHED.
Proof using Type.
  only_mentioned. run_op.
  destruct (bool_decide (st = INSTALLING)); simpl;
    destruct (bool_decide_reflect (st = FINISHED)) as [Hf|Hf]; simpl;
    in_list.
Qed.

Lemma close_installer_terminal_aux (s : State) :
  DialogAccept ∈ calls_of (handle installation_ok_clicked s) <->
  terminal (status (thread s)).
Proof using Type.
  only_mentioned. unfold terminal. run_op.
  destruct (bool_decide_reflect (status (thread s) = ERRORED)); simpl;
    [in_list |].
  destruct (bool_decide_reflect (status (thread s) = FINISHED)); simpl;
    [in_list |].
  destruct (bool_decide_reflect (status (thread s) = CANCELLED)); simpl;
    in_list.
Qed.

(** X1. A status notification closes the dialog exactly when the
    notified status is [FINISHED]: then the dialog is accepted, otherwise
    it stays as it was, on or off screen.  The decision is taken on the
    notified status alone; the worker's [status] attribute is not read. *)
Theorem status_signal_accepts_iff_finished (st : string) (s : State) :
  let r := handle (sig_installation_status st) s in
  (DialogAccept ∈ calls_of r <-> st = FINISHED) /\
  (ThreadGetAttr "status" ∉ calls_of r) /\
  (if decide (st = FINISHED)
   then done_code (state_of r) = Some Accepted /\
        dialog_visible (state_of r) = false
   else done_code (state_of r) = done_code s /\
        dialog_visible (state_of r) = dialog_visible s) /\
  _progress_label (state_of r) = st.
Proof using Type.
  only_mentioned. run_op.
  destruct (bool_decide (st = INSTALLING)); simpl;
    destruct (bool_decide_reflect (st = FINISHED)) as [Hf|Hf]; simpl;
    [rewrite decide_True by done | rewrite decide_False by done
    |rewrite decide_True by done | rewrite decide_False by done];
    (split_and!; [in_list | in_list | done | done | done]).
Qed.

(** X2. The dialog accepts itself in three situations only: on an error
    message, on a [FINISHED] status notification, and on OK when the
    worker's status is errored, finished or cancelled.  Dismiss, Cancel,
    Install, Learn more and progress notifications never accept it. *)
Theorem accept_only_on_error_finished_or_ok (e : Event) (s : State) :
  DialogAccept ∈ calls_of (handle e s) <->
  (exists msg, e = sig_error_msg msg) \/
  e = sig_installation_status FINISHED \/
  (e = installation_ok_clicked /\ terminal (status (thread s))).
Proof using Type.
  only_mentioned.
  destruct e as [c t|st|msg| | | | | | |reply].
  - run_op. destruct (c_int t); simpl;
      (split; [in_list |]);
      intros [[msg Hm]|[Hs|[Ho _]]]; discriminate.
  - destruct (status_signal_accepts_iff_finished_aux st s) as [Hto Hfrom].
    split.
    + intros Hin. right. left. f_equal. by apply Hto.
    + intros [[msg Hm]|[Hs|[Ho _]]]; try discriminate.
      apply Hfrom. congruence.
  - split; [intros _; left; by exists msg |].
    intros _. run_op. rewrite !elem_of_cons. auto.
  - run_op. split; [in_list |].
    intros [[msg Hm]|[Hs|[Ho _]]]; discriminate.
  - run_op. split; [in_list |].
    intros [[msg Hm]|[Hs|[Ho _]]]; discriminate.
  - run_op. destruct (on_screen Installation s); simpl;
      (split; [in_list |]);
      intros [[msg Hm]|[Hs|[Ho _]]]; discriminate.
  - run_op. split; [in_list |].
    intros [[msg Hm]|[Hs|[Ho _]]]; discriminate.
  - run_op. destruct (on_screen Installation s); simpl;
      (split; [in_list |]);
      intros [[msg Hm]|[Hs|[Ho _]]]; discriminate.
  - destruct (close_installer_terminal_aux s) as [Hto Hfrom].
    split.
    + intros Hin. right. right. split; [done | by apply Hto].
    + intros [[msg Hm]|[Hs|[_ Ht]]]; try discriminate. by apply Hfrom.
  - run_op.
    destruct (bool_decide (reply = Yes)); simpl;
      [destruct (running (thread s)); simpl |];
      (split; [in_list |]);
      intros [[msg Hm]|[Hs|[Ho _]]]; discriminate.
Qed.

(** X3. The worker's notifications (progress, status, error message) are
    handled without touching the worker, the configuration store or the
    choice of screen: no attribute of the worker is read or assigned, none
    of its methods is called, [CONF] and the three visibility flags are
    as before. *)
Theorem worker_signals_leave_worker_conf_screens (e : Event) (s : State)
        (Hsig : source_screen e = None) :
  let r := handle e s in
  Forall (fun c => touches_worker c = false) (calls_of r) /\
  thread (state_of r) = thread s /\
  CONF (state_of r) = CONF s /\
  vis (state_of r) = vis s.
Proof using Type.
  revert Hsig. only_mentioned.
  destruct e; intros Hsig; try discriminate; clear Hsig;
    run_op; split_ifs; (split; [repeat constructor | done]).
Qed.

Lemma handle_dialog_visible e s :
  dialog_visible (state_of (handle e s)) =
  dialog_visible s && forallb (fun c => negb (closes_dialog c))
                              (calls_of (handle e s)).
Proof using Type.
  destruct e; run_op; split_ifs; simpl; by rewrite ?andb_true_r, ?andb_false_r.
Qed.

(** X4. No handler puts the dialog on screen.  After any sequence of
    events the dialog is shown exactly if it was shown before and none of
    [accept()], [hide()] and [reject()] was called; once off screen it
    stays off screen. *)
Theorem handlers_never_show_dialog (es : list Event) (s : State) :
  let r := run es s in
  dialog_visible (state_of r) =
  dialog_visible s && forallb (fun c => negb (closes_dialog c)) (calls_of r).
Proof using Type.
  cbv zeta. revert s. induction es as [|e es IH]; intros s.
  - simpl. by rewrite andb_true_r.
  - rewrite run_cons_calls, run_cons_state, IH.
    rewrite handle_dialog_visible, forallb_app. by rewrite andb_assoc.
Qed.

Lemma handle_integration_visible e s :
  integration_visible (state_of (handle e s)) =
  integration_visible s && negb (leaves_info e).
Proof using Type.
  destruct e; run_op; split_ifs; simpl; by rewrite ?andb_true_r, ?andb_false_r.
Qed.

(** X5. The info screen never comes back.  After any sequence of events
    it is visible exactly if it was visible before and neither Learn more
    nor an Install button was pressed. *)
Theorem info_screen_never_returns (es : list Event) (s : State) :
  integration_visible (state_of (run es s)) =
  integration_visible s && forallb (fun e => negb (leaves_info e)) es.
Proof using Type.
  revert s. induction es as [|e es IH]; intros s.
  - simpl. by rewrite andb_true_r.
  - rewrite run_cons_state, IH, handle_integration_visible. simpl.
    by rewrite andb_assoc.
Qed.

(** The screens after one event. *)
Lemma handle_vis_cases e s :
  vis (state_of (handle e s)) =
  match e with
  | integration_learn_more_clicked => (false, true, false)
  | integration_install_clicked | welcome_install_clicked =>
      (false, false, true)
  | _ => vis s
  end.
Proof using Type. destruct e; run_op; split_ifs; reflexivity. Qed.

Lemma handle_exactly_one e s :
  visible_count (vis s) = 1%nat ->
  visible_count (vis (state_of (handle e s))) = 1%nat.
Proof using Type.
  unfold visible_count, vis.
  destruct s as [[st ca ru] cf i w ins lb br dv dc]; simpl.
  destruct e; run_op; split_ifs; simpl; try done; destruct i, w; simpl; lia.
Qed.

Lemma exactly_one_aux (es : list Event) : forall s,
  visible_count (vis s) = 1%nat ->
  visible_count (vis (state_of (run es s))) = 1%nat.
Proof using Type.
  induction es as [|e es IH]; intros s Hone; [done |].
  rewrite run_cons_state. apply IH. by apply handle_exactly_one.
Qed.

(** X6. When exactly one screen is visible, as it is once the dialog is
    constructed, exactly one screen is visible after every sequence of
    events: no handler leaves the dialog without a screen. *)
Theorem exactly_one_screen_after_events (es : list Event) (s : State)
        (Hone : visible_count (vis s) = 1%nat) :
  visible_count (vis (state_of (run es s))) = 1%nat.
Proof using Type. by apply exactly_one_aux. Qed.

Lemma handle_rank e s :
  from_visible_screen e s = true ->
  visible_count (vis s) = 1%nat ->
  (screen_rank (vis s) <= screen_rank (vis (state_of (handle e s))))%nat.
Proof using Type.
  rewrite handle_vis_cases.
  unfold from_visible_screen, screen_rank, visible_count, vis.
  destruct s as [[st ca ru] cf i w ins lb br dv dc]; simpl.
  destruct e; simpl; intros Hfrom Hone;
    destruct i, w, ins; simpl in *; try discriminate; lia.
Qed.

(** X7. The screens come in one order: info, welcome, installation.
    When every button press comes from the screen that is showing, no
    sequence of events leads back to an earlier screen; in particular the
    installation screen, once shown, stays. *)
Theorem screens_never_go_back (es : list Event) (s : State)
        (Hclicks : clicks_on_visible es s = true)
        (Hone : visible_count (vis s) = 1%nat) :
  (screen_rank (vis s) <= screen_rank (vis (state_of (run es s))))%nat /\
  (installation_visible s = true ->
   vis (state_of (run es s)) = (false, false, true)).
Proof using Type.
  assert (Hrank : forall es s,
             clicks_on_visible es s = true ->
             visible_count (vis s) = 1%nat ->
             (screen_rank (vis s) <=
              screen_rank (vis (state_of (run es s))))%nat).
  { clear. intros es. induction es as [|e es IH]; intros s Hc Hone; [done |].
    simpl in Hc. apply andb_true_iff in Hc as [Hfrom Hrest].
    rewrite run_cons_state.
    etrans; [by apply handle_rank |].
    apply IH; [done | by apply handle_exactly_one]. }
  split; [by apply Hrank |].
  intros Hins.
  pose proof (Hrank es s Hclicks Hone) as Hle.
  pose proof (exactly_one_aux es s Hone) as Hone'.
  revert Hle Hone'. unfold screen_rank, visible_count, vis. simpl.
  rewrite Hins.
  destruct (integration_visible (state_of (run es s))),
           (welcome_visible (state_of (run es s))),
           (installation_visible (state_of (run es s))); simpl; try lia; done.
Qed.

Lemma handle_install_calls e s :
  length (filter (fun c => c = ThreadCall "install") (calls_of (handle e s))) =
  length (filter is_install_click [e]).
Proof using Type. destruct e; run_op; split_ifs; reflexivity. Qed.

(** X8. The worker's [install()] is called once for each press of an
    Install button, on the info or the welcome screen, and by nothing
    else: over any sequence of events the number of calls is the number
    of presses. *)
Theorem worker_install_once_per_install_click (es : list Event) (s : State) :
  length (filter (fun c => c = ThreadCall "install") (calls_of (run es s))) =
  length (filter is_install_click es).
Proof using Type.
  revert s. induction es as [|e es IH]; intros s; [reflexivity |].
  rewrite run_cons_calls, filter_app, length_app, IH, handle_install_calls.
  change (e :: es) with ([e] ++ es).
  by rewrite filter_app, length_app.
Qed.

Lemma handle_quit_calls e s :
  length (filter (fun c => c = ThreadCall "quit") (calls_of (handle e s))) =
  length (filter (fun c => c = ThreadSetAttr "cancelled" (VBool true))
                 (calls_of (handle e s))) /\
  (length (filter (fun c => c = ThreadCall "quit") (calls_of (handle e s)))
   <= length (filter is_confirmed_cancel [e]))%nat.
Proof using Type.
  destruct e as [c t|st|msg| | | | | | |reply];
    [run_op; split_ifs; (split; [reflexivity | simpl; lia]) .. |].
  run_op.
  destruct (bool_decide_reflect (reply = Yes)) as [-> | Hno]; simpl;
    [destruct (running (thread s)); simpl |];
    (split; [reflexivity | simpl; lia]).
Qed.

(** X9. Over any sequence of events the worker's [quit()] is called as
    often as its [cancelled] attribute is set to [True], and at most once
    for each Cancel the user confirmed with Yes. *)
Theorem worker_quit_only_with_cancelled_flag (es : list Event) (s : State) :
  let calls := calls_of (run es s) in
  length (filter (fun c => c = ThreadCall "quit") calls) =
  length (filter (fun c => c = ThreadSetAttr "cancelled" (VBool true)) calls)
  /\
  (length (filter (fun c => c = ThreadCall "quit") calls)
   <= length (filter is_confirmed_cancel es))%nat.
Proof using Type.
  cbv zeta. revert s. induction es as [|e es IH]; intros s.
  - split; [reflexivity | simpl; lia].
  - rewrite run_cons_calls, !filter_app, !length_app.
    destruct (IH (state_of (handle e s))) as [IHeq IHle].
    destruct (handle_quit_calls e s) as [Heq Hle].
    change (e :: es) with ([e] ++ es).
    rewrite filter_app, length_app. lia.
Qed.

Lemma handle_label e s :
  _progress_label (state_of (handle e s)) =
  match e with
  | sig_installation_status st => st
  | _ => _progress_label s
  end.
Proof using Type. destruct e; run_op; split_ifs; reflexivity. Qed.

(** X10. The progress label always shows the status of the most recent
    status notification: after any sequence of events its text is the
    last notified status, or what it was before if no status was
    notified. *)
Theorem label_shows_last_status (es : list Event) (s : State) :
  _progress_label (state_of (run es s)) = last_status es (_progress_label s).
Proof using Type.
  revert s. induction es as [|e es IH]; intros s; [reflexivity |].
  rewrite run_cons_state, IH, handle_label. by destruct e.
Qed.

Lemma run_flag_stays_cleared es : forall s,
  CONF s !! kite_enabled = Some (VBool false) ->
  CONF (state_of (run es s)) !! kite_enabled = Some (VBool false).
Proof using Type.
  induction es as [|e es IH]; intros s Hs; [done |].
  rewrite run_cons_state. apply IH.
  destruct (handle_conf e s) as (_ & [-> | ->] & _); [done |].
  apply lookup_insert_eq.
Qed.

(** X11. A Dismiss pressed while the installation screen is not visible
    clears the flag for good: whatever events come before and after it,
    [CONF]'s ('kite', 'installation/enabled') is [False] at the end. *)
Theorem dismiss_clears_flag_for_good (es1 es2 : list Event) (e : Event)
        (s : State)
        (Hdismiss : is_dismiss e)
        (Hscreen : installation_visible (state_of (run es1 s)) = false) :
  CONF (state_of (run (es1 ++ e :: es2) s)) !! kite_enabled =
  Some (VBool false).
Proof using Type.
  rewrite run_app_state, run_cons_state.
  apply run_flag_stays_cleared.
  revert Hscreen. generalize (state_of (run es1 s)). intros s1 Hscreen.
  destruct Hdismiss as [-> | ->]; run_op; unfold on_screen; simpl;
    rewrite Hscreen, andb_false_r; simpl; apply lookup_insert_eq.
Qed.

Lemma reject_state (s : State) :
  state_of (reject s) =
  if on_screen Installation s
  then set_dialog false (done_code s) s
  else set_dialog false (Some Rejected)
         (set_CONF (<[kite_enabled := VBool false]> (CONF s)) s).
Proof using Type.
  only_mentioned. run_op. by destruct (on_screen Installation s).
Qed.

Lemma close_installer_state (s : State) :
  state_of (close_installer s) =
  if decide (terminal (status (thread s)))
  then set_dialog false (Some Accepted) s
  else set_dialog false (done_code s) s.
Proof using Type.
  only_mentioned. unfold terminal. run_op.
  destruct (bool_decide_reflect (status (thread s) = ERRORED)); simpl;
    [by rewrite decide_True by auto |].
  destruct (bool_decide_reflect (status (thread s) = FINISHED)); simpl;
    [by rewrite decide_True by auto |].
  destruct (bool_decide_reflect (status (thread s) = CANCELLED)); simpl;
    [by rewrite decide_True by auto |].
  by rewrite decide_False by intuition congruence.
Qed.

(** X12. [close_installer] is idempotent: run a second time it leaves
    the state it left the first time.  [reject] is not: its first run may
    only hide the dialog, and then the installation screen's
    [isVisible()] is [False], so two runs in a row always end with the
    flag cleared and the dialog rejected, whichever screen was showing.
    When the installation screen is not visible to begin with, the
    second run changes nothing. *)
Theorem ok_idempotent_dismiss_twice_rejects (s : State) :
  state_of (close_installer (state_of (close_installer s))) =
    state_of (close_installer s) /\
  state_of (reject (state_of (reject s))) =
    set_dialog false (Some Rejected)
      (set_CONF (<[kite_enabled := VBool false]> (CONF s)) s) /\
  (on_screen Installation s = false ->
   state_of (reject (state_of (reject s))) = state_of (reject s)).
Proof using Type.
  only_mentioned.
  assert (Htwice :
            state_of (reject (state_of (reject s))) =
            set_dialog false (Some Rejected)
              (set_CONF (<[kite_enabled := VBool false]> (CONF s)) s)).
  { rewrite !reject_state.
    destruct (on_screen Installation s) eqn:Hv; unfold on_screen; simpl;
      [done |].
    unfold set_dialog, set_CONF. simpl. by rewrite insert_insert_eq. }
  split_and!.
  - rewrite !close_installer_state.
    destruct (decide (terminal (status (thread s)))) as [Ht|Ht]; simpl.
    + by rewrite decide_True.
    + by rewrite decide_False.
  - exact Htwice.
  - intros Hv. rewrite Htwice, reject_state, Hv. done.
Qed.

(** X13. The cancel button is visible exactly while the pointer is over
    the progress bar: after any sequence of events on the bar it is shown
    if the most recent hover event was an enter, hidden if it was a leave,
    and as before if there was no hover event.  The filter itself decides
    nothing about the event: it returns the base class's answer. *)
Theorem cancel_button_follows_hover
        (super_eventFilter : QEventType -> bool)
        (event_types : list QEventType) (visible : bool) :
  progress_bar_events super_eventFilter visible event_types =
    match last_hover event_types with
    | Some HoverEnter => true
    | Some _ => false
    | None => visible
    end /\
  (forall ty, (eventFilter super_eventFilter ty).2 = super_eventFilter ty).
Proof using Type.
  split; [| done].
  unfold progress_bar_events, last_hover.
  revert visible.
  induction event_types as [|ty tys IH]; intros visible; [reflexivity |].
  simpl. rewrite IH.
  destruct ty; simpl; rewrite ?last_cons;
    destruct (last (List.filter is_hover tys)) as [[| |]|]; reflexivity.
Qed.

Lemma bar_setMaximum_maximum (n : Z) (b : QProgressBar) :
  maximum (bar_setMaximum n b) = n.
Proof using Type.
  unfold bar_setMaximum, bar_setRange.
  destruct (bool_decide (Z.min (minimum b) n = minimum b)); simpl;
    [destruct (bool_decide_reflect (n = maximum b)); simpl; [done |] |];
    repeat case_match; simpl; lia.
Qed.

Lemma bar_setValue_maximum (n : Z) (b : QProgressBar) :
  maximum (bar_setValue n b) = maximum b.
Proof using Type. unfold bar_setValue. by case_match. Qed.

Lemma handle_maximum e s :
  maximum (_progress_bar (state_of (handle e s))) =
  last_maximum [e] (maximum (_progress_bar s)).
Proof using Type.
  destruct e as [c t|st|msg| | | | | | |reply];
    [| | run_op; split_ifs; reflexivity ..].
  - run_op. destruct (c_int t); simpl; [| done].
    destruct (c_int c); simpl;
      by rewrite ?bar_setValue_maximum, bar_setMaximum_maximum.
  - run_op. destruct (bool_decide (st = INSTALLING)); simpl;
      [change (c_int 0) with true; simpl |];
      destruct (bool_decide (st = FINISHED)); simpl;
      try done; apply bar_setRange_0_0.
Qed.

(** X14. The progress bar's maximum follows the notifications in the
    order they arrive: after any sequence of events it is the total of the
    last progress notification whose total fits a C [int], or 0 (busy
    indicator) if an [INSTALLING] status came after it.  A total outside
    the C [int] range raises [OverflowError] in [setMaximum] and leaves
    the maximum as it was.  A progress notification that arrives after
    [INSTALLING] takes the bar out of the busy state again; button presses
    and error messages do not change the maximum. *)
Theorem bar_maximum_follows_notifications (es : list Event) (s : State) :
  maximum (_progress_bar (state_of (run es s))) =
  last_maximum es (maximum (_progress_bar s)).
Proof using Type.
  revert s. induction es as [|e es IH]; intros s; [reflexivity |].
  rewrite run_cons_state, IH, handle_maximum. by destruct e.
Qed.

End KiteInstaller.

(** ** The handlers on the sample collaborators *)

Import Sample.

#[local] Abbreviation run' :=
  (run ERRORED INSTALLING FINISHED CANCELLED gettext
       thread_install thread_quit).
#[local] Abbreviation init' := (init gettext).

(** OK while the worker installs: the three status tests fail and the
    dialog is hidden, not closed. *)
Example ok_while_installing :
  close_installer ERRORED FINISHED CANCELLED installing =
  ((), set_dialog false None installing,
   [ThreadGetAttr "status"; ThreadGetAttr "status"; ThreadGetAttr "status";
    DialogHide]).
Proof. reflexivity. Qed.

(** OK once the worker has finished: the second test succeeds, the third
    is not made, and the dialog is accepted. *)
Example ok_when_finished :
  calls_of
    (close_installer ERRORED FINISHED CANCELLED
       (set_thread (mkThread FINISHED false false) installing)) =
  [ThreadGetAttr "status"; ThreadGetAttr "status"; DialogAccept].
Proof. reflexivity. Qed.

(** Learn more, then Dismiss on the welcome screen: the flag is cleared
    and the dialog rejected. *)
Example learn_more_then_dismiss :
  let r := run' [integration_learn_more_clicked; welcome_dismiss_clicked]
                (init' idle ∅) in
  CONF (state_of r) !! ("kite", "installation/enabled") = Some (VBool false) /\
  done_code (state_of r) = Some Rejected /\
  vis (state_of r) = (false, true, false).
Proof. vm_compute. done. Qed.

(** Install from the info screen, progress, status updates up to
    finished: the worker is started once and the dialog accepts itself. *)
Example install_until_finished :
  let r := run' [integration_install_clicked;
                 sig_download_progress 10 50;
                 sig_installation_status INSTALLING;
                 sig_installation_status FINISHED]
                (init' idle ∅) in
  calls_of r =
    [WidgetHide Welcome; WidgetHide Integration; ThreadCall "install";
     WidgetSetVisible Installation true; DialogAdjustSize; DialogCenter;
     BarSetMaximum 50; BarSetValue 10;
     LabelSetText INSTALLING; BarSetRange 0 0;
     LabelSetText FINISHED; DialogAccept] /\
  thread (state_of r) = mkThread "No status" false true /\
  CONF (state_of r) = ∅ /\
  done_code (state_of r) = Some Accepted.
Proof. vm_compute. done. Qed.

(** Dismiss pressed while the installation screen shows (Escape reaches
    the same [reject]): the dialog is hidden and the flag is untouched. *)
Example reject_on_installation_screen :
  reject installing =
  ((), set_dialog false None installing,
   [WidgetIsVisible Installation; DialogHide]).
Proof. reflexivity. Qed.

(** C9 at a concrete input: the user answers No while the worker runs. *)
Lemma cancel_install_declined_or_idle_witness :
  result_of (cancel_install gettext thread_quit No installing) = false /\
  state_of (cancel_install gettext thread_quit No installing) = installing /\
  (DialogHide ∉ calls_of (cancel_install gettext thread_quit No installing)).
Proof.
  destruct (cancel_install_declined_or_idle gettext thread_quit No installing)
    as [Hdeclined _].
  destruct Hdeclined as (Hres & Hst & _ & _ & Hhide).
  - left. discriminate.
  - split_and!; assumption.
Defined.

(** ** Further runs on the sample collaborators *)

(** X3 at a concrete input: an error message while the worker installs. *)
Lemma worker_signals_leave_worker_conf_screens_witness :
  source_screen (sig_error_msg "download failed") = None /\
  thread (state_of (run' [sig_error_msg "download failed"] installing)) =
    thread installing /\
  vis (state_of (run' [sig_error_msg "download failed"] installing)) =
    (false, false, true).
Proof.
  split; [reflexivity |].
  destruct (worker_signals_leave_worker_conf_screens
              ERRORED INSTALLING FINISHED CANCELLED gettext
              thread_install thread_quit
              (sig_error_msg "download failed") installing eq_refl)
    as (_ & Hthread & _ & Hvis).
  split; [exact Hthread | exact Hvis].
Defined.

(** X6 at a concrete input: Learn more, then Install, from the
    constructed dialog. *)
Lemma exactly_one_screen_after_events_witness :
  visible_count (vis (init' idle ∅)) = 1%nat /\
  visible_count
    (vis (state_of
            (run' [integration_learn_more_clicked; welcome_install_clicked]
                  (init' idle ∅)))) = 1%nat.
Proof.
  split; [reflexivity |].
  apply (exactly_one_screen_after_events
           ERRORED INSTALLING FINISHED CANCELLED gettext
           thread_install thread_quit).
  reflexivity.
Defined.

(** X7 at a concrete input: the whole way from the info screen to OK on
    the installation screen. *)
Lemma screens_never_go_back_witness :
  clicks_on_visible
    ERRORED INSTALLING FINISHED CANCELLED gettext thread_install thread_quit
    [integration_learn_more_clicked; welcome_install_clicked;
     sig_installation_status INSTALLING; installation_ok_clicked]
    (init' idle ∅) = true /\
  (screen_rank (vis (init' idle ∅)) <=
   screen_rank
     (vis (state_of
             (run' [integration_learn_more_clicked; welcome_install_clicked;
                    sig_installation_status INSTALLING;
                    installation_ok_clicked]
                   (init' idle ∅)))))%nat.
Proof.
  split; [reflexivity |].
  apply (screens_never_go_back
           ERRORED INSTALLING FINISHED CANCELLED gettext
           thread_install thread_quit);
    reflexivity.
Defined.

(** X11 at a concrete input: Learn more, Dismiss on the welcome screen,
    and a late progress notification. *)
Lemma dismiss_clears_flag_for_good_witness :
  is_dismiss welcome_dismiss_clicked /\
  installation_visible
    (state_of (run' [integration_learn_more_clicked] (init' idle ∅))) = false /\
  CONF (state_of
          (run' ([integration_learn_more_clicked] ++
                 welcome_dismiss_clicked :: [sig_download_progress 1 2])
                (init' idle ∅)))
    !! kite_enabled = Some (VBool false).
Proof.
  split; [by right |]. split; [reflexivity |].
  apply (dismiss_clears_flag_for_good
           ERRORED INSTALLING FINISHED CANCELLED gettext
           thread_install thread_quit);
    [by right | reflexivity].
Defined.

(** Pressing Install on both screens in turn starts the worker twice:
    nothing in the dialog guards against a second start. *)
Example install_pressed_twice :
  length
    (filter (fun c => c = ThreadCall "install")
       (calls_of (run' [integration_install_clicked; welcome_install_clicked]
                       (init' idle ∅)))) = 2%nat.
Proof. reflexivity. Qed.

(** Enter, an unrelated event, leave, another unrelated event: the cancel
    button ends hidden; it shows after the enter. *)
Example hover_enter_then_leave :
  progress_bar_events (fun _ => false) cancel_button_created
    [HoverEnter; OtherEvent 12] = true /\
  progress_bar_events (fun _ => false) cancel_button_created
    [HoverEnter; OtherEvent 12; HoverLeave; OtherEvent 5] = false.
Proof. split; reflexivity. Qed.

(** Dismiss with the dialog off screen: the installation screen's own
    flag is set, but its [isVisible()] is [False], so the flag is cleared
    and the dialog rejected. *)
Example reject_with_dialog_off_screen :
  calls_of (reject (set_dialog false None installing)) =
  [WidgetIsVisible Installation;
   ConfSet "kite" "installation/enabled" (VBool false);
   DialogReject].
Proof. reflexivity. Qed.

(** [reject] twice from the installation screen: the first run hides the
    dialog and leaves [CONF] alone, the second clears the flag. *)
Example reject_twice_on_installation_screen :
  CONF (state_of (reject installing)) !! kite_enabled = None /\
  CONF (state_of (reject (state_of (reject installing)))) !! kite_enabled =
    Some (VBool false) /\
  done_code (state_of (reject (state_of (reject installing)))) =
    Some Rejected.
Proof. vm_compute. done. Qed.

(** A total that does not fit a C [int]: [setMaximum] raises, [setValue]
    is not called and the bar is as before. *)
Example progress_total_out_of_range :
  update_installation_progress 1 2147483648 installing =
  ((), installing, [BarSetMaximum 2147483648]).
Proof. reflexivity. Qed.

(** A negative total lowers the minimum with the maximum and resets the
    value; the value that follows is outside the range and is ignored. *)
Example progress_negative_total :
  _progress_bar
    (state_of (update_installation_progress 3 (-5)
                 (set_bar (mkBar 0 100 10) installing))) =
  mkBar (-5) (-5) (-6).
Proof. reflexivity. Qed.

(** [setRange(0, 0)] on the [INSTALLING] status resets a value that is
    outside the new range. *)
Example installing_status_resets_value :
  _progress_bar
    (state_of (update_installation_status INSTALLING INSTALLING
                 (set_bar (mkBar 0 100 10) installing))) =
  mkBar 0 0 (-1).
Proof. reflexivity. Qed.
